(** * Trinity: the LES protocol driver, its proxy, and the beacon-blocks tracker

    A shallow embedding of
      - [trinity/protocol/les/proto.py]: [LESHandshakeParams], [LESProtocol],
        [LESProtocolV2] and [ProxyLESProtocol];
      - [trinity/protocol/bcc/trackers.py]: [GetBeaconBlocksTracker].

    Python values that travel in payload dictionaries are a small universe
    [Value]; a dictionary is an association list in insertion order (the order
    a Python [dict] iterates in).  Methods that touch the transport, the
    logger, the event bus or the request-id generator are functions in a
    state-and-exception monad over a [World] that records, in order, every
    externally visible action. *)

From Stdlib Require Import ZArith List String Ascii Bool Lia DecimalString.
Import ListNotations.
Open Scope string_scope.
Open Scope Z_scope.
Set Warnings "-register-all".

(** ** External collaborators

    Everything the two modules import but do not define: the opaque handles
    of [p2p] and [lahja], the block header type of [eth], the request-id
    generator of [trinity._utils.les] and the constant
    [trinity.protocol.les.constants.MAX_BODIES_FETCH].  The encoders of
    [trinity.protocol.les.commands] follow in [Codec], once payloads are
    defined. *)

Definition bytes := list Byte.byte.

Inductive Command : Type :=
| Status | StatusV2 | Announce
| BlockHeaders | GetBlockHeaders
| BlockBodies | GetBlockBodies
| Receipts | GetReceipts
| Proofs | GetProofs | ProofsV2 | GetProofsV2
| ContractCodes | GetContractCodes.

Class Env : Type := {
  BlockHeader : Type;
  BaseBeaconBlock : Type;
  Transport : Type;
  SessionAPI : Type;
  EndpointAPI : Type;
  BroadcastConfig : Type;
  (* state of the pseudo-random source behind [gen_request_id] *)
  IdSource : Type;
  gen_request_id : IdSource -> Z * IdSource;
  MAX_BODIES_FETCH : Z
}.

Section Values.
Context {env : Env}.

(** Python objects that appear as dictionary values or call arguments.
    [VObj] is an instance of a named tuple class built positionally
    ([GetBlockHeadersQuery], [ProofRequest], [ContractCodeRequest]). *)
Inductive Value : Type :=
| VNone
| VBool (b : bool)
| VInt (n : Z)
| VBytes (b : bytes)
| VHeader (h : BlockHeader)
| VTuple (items : list Value)
| VList (items : list Value)
| VObj (class_name : string) (args : list Value).

(** A [dict] with string keys, in insertion order. *)
Definition Payload : Type := list (string * Value).

Fixpoint dict_get (d : Payload) (k : string) : option Value :=
  match d with
  | [] => None
  | (k', v) :: d' => if String.eqb k' k then Some v else dict_get d' k
  end.

(** [d[k] = v]: an existing key keeps its position and takes the new value, a
    new key goes last. *)
Fixpoint dict_set (d : Payload) (k : string) (v : Value) : Payload :=
  match d with
  | [] => [(k, v)]
  | (k', v') :: d' =>
      if String.eqb k' k then (k', v) :: d' else (k', v') :: dict_set d' k v
  end.

(** [dict(items)], which is what [eth_utils.to_dict] applies to the pairs a
    generator yields, and what a dictionary display evaluates to. *)
Definition to_dict (items : list (string * Value)) : Payload :=
  fold_left (fun d kv => dict_set d (fst kv) (snd kv)) items [].

Definition keys (d : Payload) : list string := map fst d.

(** [str(n)] for an [int], as an f-string interpolates it. *)
Definition str_of_int (n : Z) : string := NilZero.string_of_int (Z.to_int n).

(** Truth value of an object, as [not] and [if] test it. *)
Definition truthy (v : Value) : bool :=
  match v with
  | VNone => false
  | VBool b => b
  | VInt n => negb (n =? 0)
  | VBytes b => negb (Nat.eqb (List.length b) 0)
  | VHeader _ => true
  | VTuple items | VList items | VObj _ items => negb (Nat.eqb (List.length items) 0)
  end.

(** [not v] *)
Definition py_not (v : Value) : bool := negb (truthy v).

(** [Union[BlockNumber, Hash32]] *)
Definition value_of_number_or_hash (x : Z + bytes) : Value :=
  match x with inl n => VInt n | inr h => VBytes h end.

End Values.

(** ** [LESHandshakeParams] *)

Module LESHandshakeParams.
Section Params.
Context {env : Env}.

Record t : Type := mk {
  version : Z;
  network_id : Z;
  head_td : Z;
  head_hash : bytes;
  head_number : Z;
  genesis_hash : bytes;
  serve_headers : bool;
  serve_chain_since : option Z;
  serve_state_since : option Z;
  serve_recent_state : option bool;
  serve_recent_chain : option bool;
  tx_relay : bool;
  flow_control_bl : option Z;
  flow_control_mcr : option (list (Z * Z * Z));
  flow_control_mrr : option Z;
  announce_type : option Z
}.

(** [if cond: yield k, v] inside a generator. *)
Definition yield_if (cond : bool) (k : string) (v : Value) : list (string * Value) :=
  if cond then [(k, v)] else [].

(** [x is not None] *)
Definition is_not_None {A} (x : option A) : bool :=
  match x with Some _ => true | None => false end.

(** The value yielded for an [Optional] field that passed [is not None]. *)
Definition value_of {A} (inj : A -> Value) (x : option A) : Value :=
  match x with Some a => inj a | None => VNone end.

Definition mcr_value (rows : list (Z * Z * Z)) : Value :=
  VTuple (map (fun '(a, b, c) => VTuple [VInt a; VInt b; VInt c]) rows).

(** The pairs the generator [_as_payload_dict] yields, in order. *)
Definition _as_payload_dict_items (self : t) : list (string * Value) :=
  [ ("protocolVersion", VInt (version self));
    ("networkId", VInt (network_id self));
    ("headTd", VInt (head_td self));
    ("headHash", VBytes (head_hash self));
    ("headNum", VInt (head_number self));
    ("genesisHash", VBytes (genesis_hash self)) ]
  ++ yield_if (Bool.eqb (serve_headers self) true) "serveHeaders" VNone
  ++ yield_if (is_not_None (serve_chain_since self))
       "serveChainSince" (value_of VInt (serve_chain_since self))
  ++ yield_if (is_not_None (serve_state_since self))
       "serveStateSince" (value_of VInt (serve_state_since self))
  ++ yield_if (is_not_None (serve_recent_chain self))
       "serveRecentChain" (value_of VBool (serve_recent_chain self))
  ++ yield_if (is_not_None (serve_recent_state self))
       "serveRecentState" (value_of VBool (serve_recent_state self))
  ++ yield_if (Bool.eqb (tx_relay self) true) "txRelay" VNone
  ++ yield_if (is_not_None (flow_control_bl self))
       "flowControl/BL" (value_of VInt (flow_control_bl self))
  ++ yield_if (is_not_None (flow_control_mcr self))
       "flowControl/MRC" (value_of mcr_value (flow_control_mcr self))
  ++ yield_if (is_not_None (flow_control_mrr self))
       "flowControl/MRR" (value_of VInt (flow_control_mrr self))
  ++ yield_if (is_not_None (announce_type self))
       "announceType" (value_of VInt (announce_type self)).

(** [@to_dict def _as_payload_dict(self)] *)
Definition _as_payload_dict (self : t) : Payload :=
  to_dict (_as_payload_dict_items self).

Definition as_payload_dict (self : t) : Payload := _as_payload_dict self.

(** The attribute names in declaration order ([LESHandshakeParams._fields])
    from [serve_headers] on, each with the payload key it is yielded under. *)
Definition optional_fields_declared : list string :=
  [ "serveHeaders"; "serveChainSince"; "serveStateSince";
    "serveRecentState"; "serveRecentChain"; "txRelay";
    "flowControl/BL"; "flowControl/MRC"; "flowControl/MRR"; "announceType" ].

(** The order in which the body of [_as_payload_dict] tests them. *)
Definition optional_fields_yielded : list string :=
  [ "serveHeaders"; "serveChainSince"; "serveStateSince";
    "serveRecentChain"; "serveRecentState"; "txRelay";
    "flowControl/BL"; "flowControl/MRC"; "flowControl/MRR"; "announceType" ].

Definition required_fields : list string :=
  [ "protocolVersion"; "networkId"; "headTd"; "headHash"; "headNum";
    "genesisHash" ].

(** Whether the guard of the [yield] for key [k] holds on [self]. *)
Definition yields (self : t) (k : string) : bool :=
  if String.eqb k "serveHeaders" then Bool.eqb (serve_headers self) true
  else if String.eqb k "serveChainSince" then is_not_None (serve_chain_since self)
  else if String.eqb k "serveStateSince" then is_not_None (serve_state_since self)
  else if String.eqb k "serveRecentChain" then is_not_None (serve_recent_chain self)
  else if String.eqb k "serveRecentState" then is_not_None (serve_recent_state self)
  else if String.eqb k "txRelay" then Bool.eqb (tx_relay self) true
  else if String.eqb k "flowControl/BL" then is_not_None (flow_control_bl self)
  else if String.eqb k "flowControl/MRC" then is_not_None (flow_control_mcr self)
  else if String.eqb k "flowControl/MRR" then is_not_None (flow_control_mrr self)
  else if String.eqb k "announceType" then is_not_None (announce_type self)
  else false.

End Params.
End LESHandshakeParams.

(** ** The world the drivers act on *)

(** [cmd(cmd_id_offset, snappy_support).encode(data)], the [(header, body)]
    pair of a command class of [trinity.protocol.les.commands]. *)
Class Codec {env : Env} : Type := {
  encode : Command -> Z -> bool -> Payload -> bytes * bytes
}.

Section World.
Context {env : Env} {codec : Codec}.

(** [SendBlockHeadersEvent(session, headers, buffer_value, request_id)];
    the last argument is whatever the proxy passes, an [int] or [None]. *)
Record SendBlockHeadersEvent : Type := mkSendBlockHeadersEvent {
  ev_session : SessionAPI;
  ev_headers : list BlockHeader;
  ev_buffer_value : Z;
  ev_request_id : option Z
}.

(** One externally visible step of a method, in the order it happens.
    [Encoded] records a call [cmd(cmd_id_offset, snappy_support).encode(data)];
    [TransportSend] is [transport.send(header, body)]. *)
Inductive Action : Type :=
| Encoded (cmd : Command) (cmd_id_offset : Z) (snappy_support : bool) (data : Payload)
| TransportSend (transport : Transport) (header body : bytes)
| LoggerDebug (msg : string) (arg : Payload)
| BroadcastNowait (bus : EndpointAPI) (event : SendBlockHeadersEvent)
    (config : BroadcastConfig).

Record World : Type := mkWorld {
  id_source : IdSource;
  trace : list Action
}.

Inductive Exception : Type :=
| ValidationError (msg : string)
| ValueError (msg : string)
| NotImplementedError (msg : string)
| AttributeError (name : string)
| KeyError (key : string).

Inductive Result (A : Type) : Type :=
| Ok (a : A)
| Raise (e : Exception).
Arguments Ok {A} a.
Arguments Raise {A} e.

(** A computation: it returns or raises, and in both cases leaves a world
    behind (what was done before a [raise] stays done). *)
Definition M (A : Type) : Type := World -> Result A * World.

Definition ret {A} (a : A) : M A := fun w => (Ok a, w).

Definition bind {A B} (m : M A) (k : A -> M B) : M B :=
  fun w =>
    match m w with
    | (Ok a, w') => k a w'
    | (Raise e, w') => (Raise e, w')
    end.

Definition raise {A} (e : Exception) : M A := fun w => (Raise e, w).

Definition perform (a : Action) : M unit :=
  fun w => (Ok tt, mkWorld (id_source w) (trace w ++ [a])).

(** [gen_request_id()] *)
Definition fresh_request_id : M Z :=
  fun w =>
    let (n, s') := gen_request_id (id_source w) in
    (Ok n, mkWorld s' (trace w)).

(** [cmd(offset, snappy).encode(data)] as a step: the call is recorded and
    the frame returned. *)
Definition encode_with (cmd : Command) (offset : Z) (snappy : bool)
    (data : Payload) : M (bytes * bytes) :=
  fun w =>
    (Ok (encode cmd offset snappy data),
     mkWorld (id_source w) (trace w ++ [Encoded cmd offset snappy data])).

End World.

Arguments Ok {A} a.
Arguments Raise {A} e.

Declare Scope py_scope.
Delimit Scope py_scope with py.
Notation "x <- m ;; k" := (bind m (fun x => k))
  (at level 61, m at next level, right associativity) : py_scope.
Notation "m ;; k" := (bind m (fun _ => k))
  (at level 61, right associativity) : py_scope.
Open Scope py_scope.

(** ** [LESProtocol] and [LESProtocolV2] *)

Section Drivers.
Context {env : Env} {codec : Codec}.

Inductive ProtocolClass : Type := cls_LESProtocol | cls_LESProtocolV2.

(** Class attributes; both class bodies assign all three. *)
Definition version (c : ProtocolClass) : Z :=
  match c with cls_LESProtocol => 1 | cls_LESProtocolV2 => 2 end.

Definition _commands (c : ProtocolClass) : list Command :=
  match c with
  | cls_LESProtocol =>
      [Status; Announce; BlockHeaders; GetBlockHeaders; BlockBodies;
       Receipts; Proofs; ContractCodes]
  | cls_LESProtocolV2 =>
      [StatusV2; Announce; BlockHeaders; GetBlockHeaders; BlockBodies;
       Receipts; ProofsV2; ContractCodes]
  end.


(** An instance: its class and what [p2p.protocol.Protocol.__init__] stores. *)
Record Driver : Type := mkDriver {
  class_of : ProtocolClass;
  transport : Transport;
  cmd_id_offset : Z;
  snappy_support : bool
}.

(** [self.transport.send(header, body)] *)
Definition transport_send (self : Driver) (frame : bytes * bytes) : M unit :=
  perform (TransportSend (transport self) (fst frame) (snd frame)).

(** [if request_id is None: request_id = gen_request_id()] *)
Definition request_id_or_fresh (request_id : option Z) : M Z :=
  match request_id with
  | None => fresh_request_id
  | Some r => ret r
  end.

Definition version_mismatch_msg (params_version proto_version : Z) : string :=
  "LES protocol version mismatch: " ++
  "params:" ++ str_of_int params_version ++ " != proto:" ++ str_of_int proto_version.

Definition LESProtocol_send_handshake (self : Driver)
    (handshake_params : LESHandshakeParams.t) : M unit :=
  if negb (LESHandshakeParams.version handshake_params =? version (class_of self))
  then raise (ValidationError
                (version_mismatch_msg (LESHandshakeParams.version handshake_params)
                   (version (class_of self))))
  else
    let resp := LESHandshakeParams.as_payload_dict handshake_params in
    frame <- encode_with Status (cmd_id_offset self) (snappy_support self) resp ;;
    transport_send self frame ;;
    perform (LoggerDebug "Sending LES/Status msg: %s" resp).

Definition too_many_bodies_msg : string :=
  "Cannot ask for more than " ++ str_of_int MAX_BODIES_FETCH ++
  " blocks in a single request".

Definition LESProtocol_send_get_block_bodies (self : Driver)
    (block_hashes : list bytes) (request_id : option Z) : M Z :=
  request_id <- request_id_or_fresh request_id ;;
  if Z.of_nat (List.length block_hashes) >? MAX_BODIES_FETCH
  then raise (ValueError too_many_bodies_msg)
  else
    let data := to_dict [ ("request_id", VInt request_id);
                          ("block_hashes", VList (map VBytes block_hashes)) ] in
    frame <- encode_with GetBlockBodies (cmd_id_offset self) (snappy_support self) data ;;
    transport_send self frame ;;
    ret request_id.

Definition LESProtocol_send_get_block_headers (self : Driver)
    (block_number_or_hash : Z + bytes) (max_headers skip : Z) (reverse : bool)
    (request_id : option Z) : M Z :=
  request_id <- request_id_or_fresh request_id ;;
  let data := to_dict [ ("request_id", VInt request_id);
                        ("query", VObj "GetBlockHeadersQuery"
                                    [ value_of_number_or_hash block_number_or_hash;
                                      VInt max_headers; VInt skip; VBool reverse ]) ] in
  frame <- encode_with GetBlockHeaders (cmd_id_offset self) (snappy_support self) data ;;
  transport_send self frame ;;
  ret request_id.

Definition LESProtocol_send_block_headers (self : Driver)
    (headers : list BlockHeader) (buffer_value : Z) (request_id : option Z) : M Z :=
  request_id <- request_id_or_fresh request_id ;;
  let data := to_dict [ ("request_id", VInt request_id);
                        ("headers", VTuple (map VHeader headers));
                        ("buffer_value", VInt buffer_value) ] in
  frame <- encode_with BlockHeaders (cmd_id_offset self) (snappy_support self) data ;;
  transport_send self frame ;;
  ret request_id.

Definition LESProtocol_send_get_receipts (self : Driver)
    (block_hash : bytes) (request_id : option Z) : M Z :=
  request_id <- request_id_or_fresh request_id ;;
  let data := to_dict [ ("request_id", VInt request_id);
                        ("block_hashes", VList [VBytes block_hash]) ] in
  frame <- encode_with GetReceipts (cmd_id_offset self) (snappy_support self) data ;;
  transport_send self frame ;;
  ret request_id.

Definition ProofRequest (block_hash account_key key : bytes) (from_level : Z) : Value :=
  VObj "ProofRequest" [VBytes block_hash; VBytes account_key; VBytes key; VInt from_level].

Definition ContractCodeRequest (block_hash key : bytes) : Value :=
  VObj "ContractCodeRequest" [VBytes block_hash; VBytes key].

Definition LESProtocol_send_get_proof (self : Driver)
    (block_hash account_key key : bytes) (from_level : Z)
    (request_id : option Z) : M Z :=
  request_id <- request_id_or_fresh request_id ;;
  let data := to_dict [ ("request_id", VInt request_id);
                        ("proof_requests",
                         VList [ProofRequest block_hash account_key key from_level]) ] in
  frame <- encode_with GetProofs (cmd_id_offset self) (snappy_support self) data ;;
  transport_send self frame ;;
  ret request_id.

Definition LESProtocol_send_get_contract_code (self : Driver)
    (block_hash key : bytes) (request_id : option Z) : M Z :=
  request_id <- request_id_or_fresh request_id ;;
  let data := to_dict [ ("request_id", VInt request_id);
                        ("code_requests", VList [ContractCodeRequest block_hash key]) ] in
  frame <- encode_with GetContractCodes (cmd_id_offset self) (snappy_support self) data ;;
  transport_send self frame ;;
  ret request_id.

(** [LESProtocolV2.send_handshake]: the arguments of [transport.send] are
    evaluated after the call to [logger.debug]. *)
Definition LESProtocolV2_send_handshake (self : Driver)
    (handshake_params : LESHandshakeParams.t) : M unit :=
  if negb (LESHandshakeParams.version handshake_params =? version (class_of self))
  then raise (ValidationError
                (version_mismatch_msg (LESHandshakeParams.version handshake_params)
                   (version (class_of self))))
  else
    let resp := LESHandshakeParams.as_payload_dict handshake_params in
    perform (LoggerDebug "Sending LES/Status msg: %s" resp) ;;
    frame <- encode_with StatusV2 (cmd_id_offset self) (snappy_support self) resp ;;
    transport_send self frame.

Definition LESProtocolV2_send_get_proof (self : Driver)
    (block_hash account_key key : bytes) (from_level : Z)
    (request_id : option Z) : M Z :=
  request_id <- request_id_or_fresh request_id ;;
  let data := to_dict [ ("request_id", VInt request_id);
                        ("proof_requests",
                         VList [ProofRequest block_hash account_key key from_level]) ] in
  frame <- encode_with GetProofsV2 (cmd_id_offset self) (snappy_support self) data ;;
  transport_send self frame ;;
  ret request_id.

(** *** Attribute lookup along the method resolution order *)

(** The names each class body binds. *)
Definition class_body (c : ProtocolClass) : list string :=
  match c with
  | cls_LESProtocol =>
      [ "name"; "version"; "_commands"; "cmd_length";
        "send_handshake"; "send_get_block_bodies"; "send_get_block_headers";
        "send_block_headers"; "send_get_receipts"; "send_get_proof";
        "send_get_contract_code" ]
  | cls_LESProtocolV2 =>
      [ "version"; "_commands"; "cmd_length"; "send_handshake"; "send_get_proof" ]
  end.

(** [class LESProtocolV2(LESProtocol)] *)
Definition mro (c : ProtocolClass) : list ProtocolClass :=
  match c with
  | cls_LESProtocol => [cls_LESProtocol]
  | cls_LESProtocolV2 => [cls_LESProtocolV2; cls_LESProtocol]
  end.

(** The first class of the resolution order whose body binds [attr]. *)
Definition defining_class (c : ProtocolClass) (attr : string) : option ProtocolClass :=
  find (fun k => existsb (String.eqb attr) (class_body k)) (mro c).

(** [self.send_handshake(handshake_params)] and the other bound methods. *)
Definition send_handshake (self : Driver)
    (handshake_params : LESHandshakeParams.t) : M unit :=
  match defining_class (class_of self) "send_handshake" with
  | Some cls_LESProtocol => LESProtocol_send_handshake self handshake_params
  | Some cls_LESProtocolV2 => LESProtocolV2_send_handshake self handshake_params
  | None => raise (AttributeError "send_handshake")
  end.

Definition send_get_block_bodies (self : Driver)
    (block_hashes : list bytes) (request_id : option Z) : M Z :=
  match defining_class (class_of self) "send_get_block_bodies" with
  | Some cls_LESProtocol => LESProtocol_send_get_block_bodies self block_hashes request_id
  | _ => raise (AttributeError "send_get_block_bodies")
  end.

Definition send_get_block_headers (self : Driver)
    (block_number_or_hash : Z + bytes) (max_headers skip : Z) (reverse : bool)
    (request_id : option Z) : M Z :=
  match defining_class (class_of self) "send_get_block_headers" with
  | Some cls_LESProtocol =>
      LESProtocol_send_get_block_headers self block_number_or_hash max_headers skip
        reverse request_id
  | _ => raise (AttributeError "send_get_block_headers")
  end.

Definition send_block_headers (self : Driver)
    (headers : list BlockHeader) (buffer_value : Z) (request_id : option Z) : M Z :=
  match defining_class (class_of self) "send_block_headers" with
  | Some cls_LESProtocol => LESProtocol_send_block_headers self headers buffer_value request_id
  | _ => raise (AttributeError "send_block_headers")
  end.

Definition send_get_receipts (self : Driver)
    (block_hash : bytes) (request_id : option Z) : M Z :=
  match defining_class (class_of self) "send_get_receipts" with
  | Some cls_LESProtocol => LESProtocol_send_get_receipts self block_hash request_id
  | _ => raise (AttributeError "send_get_receipts")
  end.

Definition send_get_proof (self : Driver)
    (block_hash account_key key : bytes) (from_level : Z)
    (request_id : option Z) : M Z :=
  match defining_class (class_of self) "send_get_proof" with
  | Some cls_LESProtocol =>
      LESProtocol_send_get_proof self block_hash account_key key from_level request_id
  | Some cls_LESProtocolV2 =>
      LESProtocolV2_send_get_proof self block_hash account_key key from_level request_id
  | None => raise (AttributeError "send_get_proof")
  end.

Definition send_get_contract_code (self : Driver)
    (block_hash key : bytes) (request_id : option Z) : M Z :=
  match defining_class (class_of self) "send_get_contract_code" with
  | Some cls_LESProtocol => LESProtocol_send_get_contract_code self block_hash key request_id
  | _ => raise (AttributeError "send_get_contract_code")
  end.

(** The request-sending methods as one call surface: a method name with its
    positional arguments. *)
Inductive RequestCall : Type :=
| call_send_get_block_bodies (block_hashes : list bytes)
| call_send_get_block_headers (block_number_or_hash : Z + bytes)
    (max_headers skip : Z) (reverse : bool)
| call_send_block_headers (headers : list BlockHeader) (buffer_value : Z)
| call_send_get_receipts (block_hash : bytes)
| call_send_get_proof (block_hash account_key key : bytes) (from_level : Z)
| call_send_get_contract_code (block_hash key : bytes).

Definition invoke (self : Driver) (c : RequestCall) (request_id : option Z) : M Z :=
  match c with
  | call_send_get_block_bodies hs => send_get_block_bodies self hs request_id
  | call_send_get_block_headers b m s r => send_get_block_headers self b m s r request_id
  | call_send_block_headers hs bv => send_block_headers self hs bv request_id
  | call_send_get_receipts h => send_get_receipts self h request_id
  | call_send_get_proof h a k l => send_get_proof self h a k l request_id
  | call_send_get_contract_code h k => send_get_contract_code self h k request_id
  end.

(** The command class a request call encodes with, read off the method body
    that [invoke] reaches. *)
Definition command_of (c : ProtocolClass) (r : RequestCall) : Command :=
  match r with
  | call_send_get_block_bodies _ => GetBlockBodies
  | call_send_get_block_headers _ _ _ _ => GetBlockHeaders
  | call_send_block_headers _ _ => BlockHeaders
  | call_send_get_receipts _ => GetReceipts
  | call_send_get_proof _ _ _ _ =>
      match c with cls_LESProtocol => GetProofs | cls_LESProtocolV2 => GetProofsV2 end
  | call_send_get_contract_code _ _ => GetContractCodes
  end.

End Drivers.

(** ** [ProxyLESProtocol] *)

Section Proxy.
Context {env : Env} {codec : Codec}.

Record ProxyLESProtocol : Type := mkProxyLESProtocol {
  session : SessionAPI;
  _event_bus : EndpointAPI;
  _broadcast_config : BroadcastConfig
}.

Definition ProxyLESProtocol_send_handshake (self : ProxyLESProtocol)
    (handshake_params : LESHandshakeParams.t) : M unit :=
  raise (NotImplementedError "API not implemented").

Definition ProxyLESProtocol_send_get_block_bodies (self : ProxyLESProtocol)
    (block_hashes : list bytes) (request_id : option Z) : M Z :=
  raise (NotImplementedError "API not implemented").

Definition ProxyLESProtocol_send_get_block_headers (self : ProxyLESProtocol)
    (block_number_or_hash : Z + bytes) (max_headers skip : Z) (reverse : bool)
    (request_id : option Z) : M Z :=
  raise (NotImplementedError "API not implemented").

(** [req_id = request_id if not None else gen_request_id()]: the condition
    is the constant expression [not None]; [req_id] is bound to [request_id]
    itself, which may be [None]. *)
Definition ProxyLESProtocol_send_block_headers (self : ProxyLESProtocol)
    (headers : list BlockHeader) (buffer_value : Z) (request_id : option Z)
    : M (option Z) :=
  req_id <- (if py_not VNone then ret request_id
             else n <- fresh_request_id ;; ret (Some n)) ;;
  perform (BroadcastNowait (_event_bus self)
             (mkSendBlockHeadersEvent (session self) headers buffer_value req_id)
             (_broadcast_config self)) ;;
  ret req_id.

Definition ProxyLESProtocol_send_get_receipts (self : ProxyLESProtocol)
    (block_hash : bytes) (request_id : option Z) : M Z :=
  raise (NotImplementedError "API not implemented").

Definition ProxyLESProtocol_send_get_proof (self : ProxyLESProtocol)
    (block_hash account_key key : bytes) (from_level : Z)
    (request_id : option Z) : M Z :=
  raise (NotImplementedError "API not implemented").

Definition ProxyLESProtocol_send_get_contract_code (self : ProxyLESProtocol)
    (block_hash key : bytes) (request_id : option Z) : M Z :=
  raise (NotImplementedError "API not implemented").

End Proxy.

(** ** [GetBeaconBlocksTracker] *)

Module GetBeaconBlocksTracker.
Section Tracker.
Context {env : Env}.

(** [trinity.protocol.bcc.requests.GetBeaconBlocksRequest], of which the
    tracker reads the [command_payload] dictionary only. *)
Record GetBeaconBlocksRequest : Type := mkRequest {
  command_payload : Payload
}.

(** [d[k]] *)
Definition dict_getitem (d : Payload) (k : string) : Result Value :=
  match dict_get d k with
  | Some v => Ok v
  | None => Raise (KeyError k)
  end.

Definition _get_request_size (request : GetBeaconBlocksRequest) : Result Value :=
  dict_getitem (command_payload request) "max_blocks".

Definition _get_result_size (result : list BaseBeaconBlock) : Z :=
  Z.of_nat (List.length result).

Definition _get_result_item_count (result : list BaseBeaconBlock) : Z :=
  Z.of_nat (List.length result).

End Tracker.
End GetBeaconBlocksTracker.

(** ** Concrete collaborators used to run the model on inputs *)

Definition demo_env : Env := {|
  BlockHeader := Z;
  BaseBeaconBlock := Z;
  Transport := unit;
  SessionAPI := unit;
  EndpointAPI := unit;
  BroadcastConfig := unit;
  IdSource := Z;
  gen_request_id := fun s => (s, s + 1);
  MAX_BODIES_FETCH := 2
|}.

(** A stand-in encoder: the header is the command-id offset as one byte, the
    body is empty. *)
Definition demo_codec : @Codec demo_env := {|
  encode := fun _ offset _ _ =>
    (match Byte.of_N (Z.to_N (offset mod 256)) with
     | Some b => [b]
     | None => []
     end, [])
|}.

Definition demo_params : @LESHandshakeParams.t :=
  LESHandshakeParams.mk 1 1 100 [] 7 [] true None None (Some true) (Some true)
    false None None None None.

(** A record with every [Optional] field [None] and both flags [False]. *)
Definition bare_params : @LESHandshakeParams.t :=
  LESHandshakeParams.mk 2 1 100 [] 7 [] false None None None None
    false None None None None.

(** A record that serves recent state but, explicitly, not the recent chain. *)
Definition recent_params : @LESHandshakeParams.t :=
  LESHandshakeParams.mk 2 1 100 [] 7 [] false None None (Some true) (Some false)
    false None None None None.

Definition demo_world : @World demo_env := @mkWorld demo_env 41 [].

(** ** Dictionaries *)

Open Scope list_scope.

Section DictFacts.
Context {env : Env}.

Lemma dict_get_app (d1 d2 : Payload) (k : string) :
  dict_get (d1 ++ d2) k =
  match dict_get d1 k with Some v => Some v | None => dict_get d2 k end.
Proof.
  induction d1 as [|[k' v'] d1 IH]; simpl; [reflexivity|].
  destruct (String.eqb k' k); [reflexivity | exact IH].
Qed.

Lemma dict_get_None_iff (d : Payload) (k : string) :
  dict_get d k = None <-> ~ In k (keys d).
Proof.
  induction d as [|[k' v'] d IH]; simpl.
  - split; [intros _ [] | reflexivity].
  - destruct (String.eqb_spec k' k) as [->|Hne].
    + split; [discriminate | intros Hn; exfalso; apply Hn; now left].
    + rewrite IH. split.
      * intros Hn [Heq|Hin]; [now apply Hne | now apply Hn].
      * intros Hn Hin. apply Hn. now right.
Qed.

Lemma dict_set_fresh (d : Payload) (k : string) (v : Value) :
  ~ In k (keys d) -> dict_set d k v = d ++ [(k, v)].
Proof.
  induction d as [|[k' v'] d IH]; simpl; intros Hn; [reflexivity|].
  destruct (String.eqb_spec k' k) as [->|Hne].
  - exfalso. apply Hn. now left.
  - rewrite IH; [reflexivity|]. intros Hin. apply Hn. now right.
Qed.

Lemma fold_dict_set_fresh (items acc : Payload) :
  NoDup (keys (acc ++ items)) ->
  fold_left (fun d kv => dict_set d (fst kv) (snd kv)) items acc = acc ++ items.
Proof.
  revert acc. induction items as [|[k v] items IH]; intros acc Hnd; simpl.
  - now rewrite app_nil_r.
  - assert (Hsplit : acc ++ (k, v) :: items = (acc ++ [(k, v)]) ++ items)
      by now rewrite <- app_assoc.
    rewrite dict_set_fresh.
    + rewrite IH; [now rewrite <- app_assoc | now rewrite <- Hsplit].
    + unfold keys in *. rewrite map_app in Hnd. simpl in Hnd.
      apply NoDup_remove_2 in Hnd. intros Hin. apply Hnd.
      apply in_or_app. now left.
Qed.

(** [dict] of pairs with pairwise distinct keys is those pairs, in order. *)
Lemma to_dict_distinct_keys (items : Payload) :
  NoDup (keys items) -> to_dict items = items.
Proof.
  intros Hnd. unfold to_dict. now rewrite fold_dict_set_fresh.
Qed.

Lemma NoDup_app_filter {A} (p : A -> bool) (l1 l2 : list A) :
  NoDup (l1 ++ l2) -> NoDup (l1 ++ filter p l2).
Proof.
  induction l1 as [|a l1 IH]; simpl; intros Hnd.
  - now apply NoDup_filter.
  - inversion Hnd as [|? ? Hnotin Hnd']; subst. constructor; [|now apply IH].
    intros Hin. apply Hnotin. apply in_app_or in Hin. apply in_or_app.
    destruct Hin as [Hin|Hin]; [now left | right].
    now apply filter_In in Hin.
Qed.

Lemma filter_cons_app {A} (p : A -> bool) (a : A) (l : list A) :
  filter p (a :: l) = (if p a then [a] else []) ++ filter p l.
Proof. simpl. now destruct (p a). Qed.

End DictFacts.

(** ** The handshake payload *)

Module P := LESHandshakeParams.

Section HandshakeFacts.
Context {env : Env}.

Lemma payload_keys_distinct :
  NoDup (P.required_fields ++ P.optional_fields_yielded).
Proof.
  unfold P.required_fields, P.optional_fields_yielded. simpl.
  repeat (constructor; [simpl; intuition discriminate|]).
  constructor.
Qed.

Lemma keys_yield_if (c : bool) (k : string) (v : Value) :
  keys (P.yield_if c k v) = if c then [k] else [].
Proof. now destruct c. Qed.

Lemma dict_get_yield_if (c : bool) (k k' : string) (v : Value) :
  dict_get (P.yield_if c k v) k' = if c && String.eqb k k' then Some v else None.
Proof. destruct c; simpl; [|reflexivity]. now destruct (String.eqb k k'). Qed.

(** The keys the generator yields: the six fixed ones, then the optional ones
    whose guard holds, in the order of the [if] statements. *)
Lemma items_keys (self : P.t) :
  keys (P._as_payload_dict_items self) =
  P.required_fields ++ filter (P.yields self) P.optional_fields_yielded.
Proof.
  unfold P._as_payload_dict_items, P.optional_fields_yielded, keys.
  repeat rewrite map_app. repeat rewrite filter_cons_app.
  repeat rewrite (keys_yield_if : forall c k v, map fst _ = _).
  cbn. repeat rewrite app_nil_r. reflexivity.
Qed.

(** No key is yielded twice, so [to_dict] keeps the pairs as yielded. *)
Lemma as_payload_dict_is_items (self : P.t) :
  P.as_payload_dict self = P._as_payload_dict_items self.
Proof.
  unfold P.as_payload_dict, P._as_payload_dict.
  apply to_dict_distinct_keys. rewrite items_keys.
  apply NoDup_app_filter, payload_keys_distinct.
Qed.

End HandshakeFacts.

Section HandshakeClaims.
Context {env : Env}.

Ltac payload_lookup :=
  rewrite as_payload_dict_is_items; unfold P._as_payload_dict_items;
  repeat rewrite dict_get_app; repeat rewrite dict_get_yield_if; cbn;
  repeat rewrite andb_false_r; repeat rewrite andb_true_r.

(** C3. The six fixed fields are in the payload whatever the record holds,
    each under its key and with the record's value; an [Optional] field that
    is [None] has no entry in the payload. *)
Theorem payload_required_present_none_absent (self : P.t) :
  let d := P.as_payload_dict self in
  (dict_get d "protocolVersion" = Some (VInt (P.version self)) /\
   dict_get d "networkId" = Some (VInt (P.network_id self)) /\
   dict_get d "headTd" = Some (VInt (P.head_td self)) /\
   dict_get d "headHash" = Some (VBytes (P.head_hash self)) /\
   dict_get d "headNum" = Some (VInt (P.head_number self)) /\
   dict_get d "genesisHash" = Some (VBytes (P.genesis_hash self))) /\
  ((P.serve_chain_since self = None -> dict_get d "serveChainSince" = None) /\
   (P.serve_state_since self = None -> dict_get d "serveStateSince" = None) /\
   (P.serve_recent_state self = None -> dict_get d "serveRecentState" = None) /\
   (P.serve_recent_chain self = None -> dict_get d "serveRecentChain" = None) /\
   (P.flow_control_bl self = None -> dict_get d "flowControl/BL" = None) /\
   (P.flow_control_mcr self = None -> dict_get d "flowControl/MRC" = None) /\
   (P.flow_control_mrr self = None -> dict_get d "flowControl/MRR" = None) /\
   (P.announce_type self = None -> dict_get d "announceType" = None)).
Proof.
  cbv zeta. split.
  - repeat split; now rewrite as_payload_dict_is_items.
  - repeat split; intros Hnone; payload_lookup; now rewrite Hnone.
Qed.

(** The rule for a boolean capability as the data model words it: a key with
    no value ([None]) when the flag is true, no key at all otherwise. *)
Definition presence_marker_rule (d : Payload) (k : string) (flag : option bool) : Prop :=
  (flag = Some true -> dict_get d k = Some VNone) /\
  (flag <> Some true -> dict_get d k = None).

(** C2, as amended.  [serve_headers] and [tx_relay] follow the presence-marker
    rule.  [serve_recent_state] and [serve_recent_chain] are tested with
    [is not None]: they are left out only when [None], and otherwise carry
    their boolean as the value, [False] included. *)
Theorem capability_flags_in_payload (self : P.t) :
  let d := P.as_payload_dict self in
  dict_get d "serveHeaders" = (if P.serve_headers self then Some VNone else None) /\
  dict_get d "txRelay" = (if P.tx_relay self then Some VNone else None) /\
  dict_get d "serveRecentState" = option_map VBool (P.serve_recent_state self) /\
  dict_get d "serveRecentChain" = option_map VBool (P.serve_recent_chain self).
Proof.
  cbv zeta. repeat split; payload_lookup.
  - now destruct (P.serve_headers self).
  - now destruct (P.tx_relay self).
  - now destruct (P.serve_recent_state self).
  - now destruct (P.serve_recent_chain self).
Qed.

(** C9, as amended.  The keys of the payload, in order: the six fixed keys,
    then the keys of the optional fields whose guard holds, in the order of
    the [if] statements, where [serveRecentChain] comes before
    [serveRecentState]. *)
Theorem payload_key_order (self : P.t) :
  keys (P.as_payload_dict self) =
  P.required_fields ++ filter (P.yields self) P.optional_fields_yielded.
Proof. rewrite as_payload_dict_is_items. apply items_keys. Qed.

End HandshakeClaims.

Lemma payload_required_present_none_absent_witness :
  let d := @P.as_payload_dict demo_env bare_params in
  dict_get d "protocolVersion" = Some (VInt 2) /\
  dict_get d "genesisHash" = Some (VBytes []) /\
  dict_get d "serveChainSince" = None /\
  dict_get d "serveStateSince" = None /\
  dict_get d "serveRecentState" = None /\
  dict_get d "serveRecentChain" = None /\
  dict_get d "flowControl/BL" = None /\
  dict_get d "flowControl/MRC" = None /\
  dict_get d "flowControl/MRR" = None /\
  dict_get d "announceType" = None.
Proof.
  destruct (@payload_required_present_none_absent demo_env bare_params)
    as [(Hv & _ & _ & _ & _ & Hg) (H1 & H2 & H3 & H4 & H5 & H6 & H7 & H8)].
  cbv zeta.
  exact (conj Hv (conj Hg (conj (H1 eq_refl) (conj (H2 eq_refl) (conj (H3 eq_refl)
          (conj (H4 eq_refl) (conj (H5 eq_refl) (conj (H6 eq_refl)
          (conj (H7 eq_refl) (H8 eq_refl)))))))))).
Defined.

(** C2 as stated fails on [serve_recent_state] and [serve_recent_chain]: set
    true, the field carries the value [True] instead of no value; set false,
    it is still in the payload. *)
Lemma recent_flags_break_presence_marker_rule :
  let d := @P.as_payload_dict demo_env recent_params in
  ~ presence_marker_rule d "serveRecentState" (P.serve_recent_state recent_params) /\
  ~ presence_marker_rule d "serveRecentChain" (P.serve_recent_chain recent_params).
Proof.
  cbv zeta. split; intros [Htrue Hfalse].
  - specialize (Htrue eq_refl). vm_compute in Htrue. discriminate.
  - assert (Hne : P.serve_recent_chain recent_params <> Some true)
      by (vm_compute; discriminate).
    specialize (Hfalse Hne). vm_compute in Hfalse. discriminate.
Qed.

(** C9 as stated fails: with both recent-* fields set, the payload has
    [serveRecentChain] before [serveRecentState], the reverse of the order in
    which the attributes are declared. *)
Lemma payload_key_order_is_not_declaration_order :
  keys (@P.as_payload_dict demo_env recent_params) <>
  P.required_fields ++ filter (P.yields recent_params) P.optional_fields_declared.
Proof. vm_compute. discriminate. Qed.

(** ** The protocol drivers *)

Section DriverFacts.
Context {env : Env} {codec : Codec}.

(** The request id a method works with and the world after it was settled:
    the caller's id and the same world, or the generator's next id and the
    world with the generator advanced. *)
Definition settle_id (request_id : option Z) (w : World) : Z * World :=
  match request_id with
  | Some r => (r, w)
  | None => (fst (gen_request_id (id_source w)),
             mkWorld (snd (gen_request_id (id_source w))) (trace w))
  end.

Lemma request_id_or_fresh_run (request_id : option Z) (w : World) :
  request_id_or_fresh request_id w =
  (Ok (fst (settle_id request_id w)), snd (settle_id request_id w)).
Proof.
  destruct request_id as [r|]; simpl; [reflexivity|].
  unfold fresh_request_id. now destruct (gen_request_id (id_source w)).
Qed.

Lemma trace_settle_id (request_id : option Z) (w : World) :
  trace (snd (settle_id request_id w)) = trace w.
Proof. now destruct request_id. Qed.

(** The world after one request frame went out: the encoder was called on
    [data] and its frame handed to the transport. *)
Definition sent (self : Driver) (cmd : Command) (data : Payload) (w : World) : World :=
  mkWorld (id_source w)
    (trace w ++
     [ Encoded cmd (cmd_id_offset self) (snappy_support self) data;
       TransportSend (transport self)
         (fst (encode cmd (cmd_id_offset self) (snappy_support self) data))
         (snd (encode cmd (cmd_id_offset self) (snappy_support self) data)) ]).

Lemma encode_then_send (self : Driver) (cmd : Command) (data : Payload)
    {A} (k : M A) (w : World) :
  (frame <- encode_with cmd (cmd_id_offset self) (snappy_support self) data ;;
   transport_send self frame ;; k) w = k (sent self cmd data w).
Proof.
  unfold bind, encode_with, transport_send, perform, sent. simpl.
  now rewrite <- app_assoc.
Qed.

(** The dictionary each request method builds around the settled id. *)
Definition request_data (c : RequestCall) (request_id : Z) : Payload :=
  match c with
  | call_send_get_block_bodies hs =>
      [ ("request_id", VInt request_id); ("block_hashes", VList (map VBytes hs)) ]
  | call_send_get_block_headers b m s r =>
      [ ("request_id", VInt request_id);
        ("query", VObj "GetBlockHeadersQuery"
                    [value_of_number_or_hash b; VInt m; VInt s; VBool r]) ]
  | call_send_block_headers hs bv =>
      [ ("request_id", VInt request_id); ("headers", VTuple (map VHeader hs));
        ("buffer_value", VInt bv) ]
  | call_send_get_receipts h =>
      [ ("request_id", VInt request_id); ("block_hashes", VList [VBytes h]) ]
  | call_send_get_proof h a k l =>
      [ ("request_id", VInt request_id);
        ("proof_requests", VList [ProofRequest h a k l]) ]
  | call_send_get_contract_code h k =>
      [ ("request_id", VInt request_id);
        ("code_requests", VList [ContractCodeRequest h k]) ]
  end.

(** The guard of [send_get_block_bodies]; no other request method has one. *)
Definition over_limit (c : RequestCall) : bool :=
  match c with
  | call_send_get_block_bodies hs => Z.of_nat (List.length hs) >? MAX_BODIES_FETCH
  | _ => false
  end.

Lemma request_data_id (c : RequestCall) (request_id : Z) :
  dict_get (request_data c request_id) "request_id" = Some (VInt request_id).
Proof. now destruct c. Qed.

(** Every request method, on either class: settle the id, check the guard,
    then encode with the command of the method body reached and send. *)
Lemma invoke_run (self : Driver) (c : RequestCall) (request_id : option Z) (w : World) :
  invoke self c request_id w =
  if over_limit c
  then (Raise (ValueError too_many_bodies_msg), snd (settle_id request_id w))
  else (Ok (fst (settle_id request_id w)),
        sent self (command_of (class_of self) c)
          (request_data c (fst (settle_id request_id w)))
          (snd (settle_id request_id w))).
Proof.
  destruct self as [cls t off sn].
  destruct cls, c; cbn -[Z.gtb Z.of_nat];
    unfold LESProtocol_send_get_block_bodies, LESProtocol_send_get_block_headers,
      LESProtocol_send_block_headers, LESProtocol_send_get_receipts,
      LESProtocol_send_get_proof, LESProtocolV2_send_get_proof,
      LESProtocol_send_get_contract_code;
    unfold bind at 1; rewrite request_id_or_fresh_run;
    try (destruct (_ >? _); [reflexivity|]);
    rewrite encode_then_send; reflexivity.
Qed.

(** What a handshake whose version check passes does, per class. *)
Definition handshake_actions (self : Driver) (resp : Payload) : list Action :=
  let off := cmd_id_offset self in
  let sn := snappy_support self in
  match class_of self with
  | cls_LESProtocol =>
      [ Encoded Status off sn resp;
        TransportSend (transport self)
          (fst (encode Status off sn resp)) (snd (encode Status off sn resp));
        LoggerDebug "Sending LES/Status msg: %s" resp ]
  | cls_LESProtocolV2 =>
      [ LoggerDebug "Sending LES/Status msg: %s" resp;
        Encoded StatusV2 off sn resp;
        TransportSend (transport self)
          (fst (encode StatusV2 off sn resp)) (snd (encode StatusV2 off sn resp)) ]
  end.

Lemma send_handshake_run (self : Driver) (handshake_params : P.t) (w : World) :
  send_handshake self handshake_params w =
  if P.version handshake_params =? version (class_of self)
  then (Ok tt,
        mkWorld (id_source w)
          (trace w ++ handshake_actions self (P.as_payload_dict handshake_params)))
  else (Raise (ValidationError
                 (version_mismatch_msg (P.version handshake_params)
                    (version (class_of self)))), w).
Proof.
  destruct self as [cls t off sn].
  destruct cls; cbn;
    unfold LESProtocol_send_handshake, LESProtocolV2_send_handshake;
    cbn [class_of]; destruct (_ =? _); cbn [negb]; try reflexivity.
  - rewrite (encode_then_send (mkDriver cls_LESProtocol t off sn)).
    unfold perform, sent, handshake_actions. cbn. now rewrite <- app_assoc.
  - unfold bind at 1. unfold perform at 1.
    rewrite (encode_then_send (mkDriver cls_LESProtocolV2 t off sn)
               StatusV2 _ (ret tt)).
    unfold ret, sent, handshake_actions. cbn. now rewrite <- app_assoc.
Qed.

End DriverFacts.

Section DriverClaims.
Context {env : Env} {codec : Codec}.

(** C4. With more hashes than [MAX_BODIES_FETCH] the call raises and the
    trace is as it was: nothing was encoded, nothing was handed to the
    transport.  Otherwise the call returns the request id after encoding
    a [GetBlockBodies] payload that holds the id and all the hashes, and
    sending that frame, and does nothing else. *)
Theorem send_get_block_bodies_limit (self : Driver) (block_hashes : list bytes)
    (request_id : option Z) (w : World) :
  (Z.of_nat (List.length block_hashes) > MAX_BODIES_FETCH ->
   exists w',
     send_get_block_bodies self block_hashes request_id w =
       (Raise (ValueError too_many_bodies_msg), w') /\
     trace w' = trace w) /\
  (Z.of_nat (List.length block_hashes) <= MAX_BODIES_FETCH ->
   exists rid w',
     send_get_block_bodies self block_hashes request_id w = (Ok rid, w') /\
     let data := [ ("request_id", VInt rid);
                   ("block_hashes", VList (map VBytes block_hashes)) ] in
     let frame := encode GetBlockBodies (cmd_id_offset self) (snappy_support self) data in
     trace w' = trace w ++
       [ Encoded GetBlockBodies (cmd_id_offset self) (snappy_support self) data;
         TransportSend (transport self) (fst frame) (snd frame) ]).
Proof.
  pose proof (invoke_run self (call_send_get_block_bodies block_hashes) request_id w)
    as Hrun.
  cbn [invoke over_limit command_of request_data] in Hrun.
  split; intros Hlen.
  - apply Z.gtb_gt in Hlen. rewrite Hlen in Hrun.
    eexists. split; [exact Hrun | apply trace_settle_id].
  - assert (Hle : (Z.of_nat (List.length block_hashes) >? MAX_BODIES_FETCH) = false)
      by (rewrite Z.gtb_ltb; now apply Z.ltb_ge).
    rewrite Hle in Hrun. do 2 eexists. split; [exact Hrun|].
    cbv zeta. unfold sent. cbn [trace]. now rewrite trace_settle_id.
Qed.

(** C5. A record whose version is not the driver's raises [ValidationError]
    and leaves the world untouched.  A record with the driver's version is
    turned into its payload, encoded with [Status] by a version-1 driver and
    with [StatusV2] by a version-2 driver, and that frame is sent; the only
    other action is the debug log line. *)
Theorem send_handshake_version_check (self : Driver) (handshake_params : P.t)
    (w : World) :
  (P.version handshake_params <> version (class_of self) ->
   send_handshake self handshake_params w =
     (Raise (ValidationError
               (version_mismatch_msg (P.version handshake_params)
                  (version (class_of self)))), w)) /\
  (P.version handshake_params = version (class_of self) ->
   let resp := P.as_payload_dict handshake_params in
   let off := cmd_id_offset self in
   let sn := snappy_support self in
   send_handshake self handshake_params w =
     (Ok tt,
      mkWorld (id_source w)
        (trace w ++
         match class_of self with
         | cls_LESProtocol =>
             [ Encoded Status off sn resp;
               TransportSend (transport self)
                 (fst (encode Status off sn resp)) (snd (encode Status off sn resp));
               LoggerDebug "Sending LES/Status msg: %s" resp ]
         | cls_LESProtocolV2 =>
             [ LoggerDebug "Sending LES/Status msg: %s" resp;
               Encoded StatusV2 off sn resp;
               TransportSend (transport self)
                 (fst (encode StatusV2 off sn resp)) (snd (encode StatusV2 off sn resp)) ]
         end))).
Proof.
  rewrite send_handshake_run. split; intros Hv.
  - apply Z.eqb_neq in Hv. now rewrite Hv.
  - apply Z.eqb_eq in Hv. rewrite Hv. cbv zeta. unfold handshake_actions.
    now destruct (class_of self).
Qed.

(** The version-2 handshake as "the version-1 handshake with another
    command type": the body of [LESProtocol.send_handshake] with [cmd] in
    place of [Status] and nothing else changed. *)
Definition v1_handshake_with_command (cmd : Command) (self : Driver)
    (handshake_params : P.t) : M unit :=
  if negb (P.version handshake_params =? version (class_of self))
  then raise (ValidationError
                (version_mismatch_msg (P.version handshake_params)
                   (version (class_of self))))
  else
    let resp := P.as_payload_dict handshake_params in
    frame <- encode_with cmd (cmd_id_offset self) (snappy_support self) resp ;;
    transport_send self frame ;;
    perform (LoggerDebug "Sending LES/Status msg: %s" resp).

Lemma v1_handshake_with_Status (self : Driver) (handshake_params : P.t) :
  v1_handshake_with_command Status self handshake_params =
  LESProtocol_send_handshake self handshake_params.
Proof. reflexivity. Qed.


(** C10. Whenever a request method of either class returns, the id it
    returns is the value under ['request_id'] in the payload it encoded and
    sent; that id is the caller's when one was passed (and the generator is
    left alone), and the generator's next id when none was. *)
Theorem returned_id_is_payload_id (self : Driver) (c : RequestCall)
    (request_id : option Z) (w w' : World) (rid : Z) :
  invoke self c request_id w = (Ok rid, w') ->
  exists data,
    let cmd := command_of (class_of self) c in
    let frame := encode cmd (cmd_id_offset self) (snappy_support self) data in
    trace w' = trace w ++
      [ Encoded cmd (cmd_id_offset self) (snappy_support self) data;
        TransportSend (transport self) (fst frame) (snd frame) ] /\
    dict_get data "request_id" = Some (VInt rid) /\
    match request_id with
    | Some r => rid = r /\ id_source w' = id_source w
    | None => gen_request_id (id_source w) = (rid, id_source w')
    end.
Proof.
  rewrite invoke_run. destruct (over_limit c); [discriminate|].
  intros Heq. injection Heq as Hid Hw. subst rid w'.
  exists (request_data c (fst (settle_id request_id w))). cbv zeta.
  split; [|split].
  - unfold sent. cbn [trace]. now rewrite trace_settle_id.
  - apply request_data_id.
  - destruct request_id as [r|]; cbn; [now split|].
    now destruct (gen_request_id (id_source w)).
Qed.

(** The hypothesis of C10 is met by every call but an over-long bodies
    request: the request methods have no other way to fail. *)
Lemma invoke_returns (self : Driver) (c : RequestCall) (request_id : option Z)
    (w : World) :
  over_limit c = false ->
  exists rid w', invoke self c request_id w = (Ok rid, w').
Proof. intros Hlim. rewrite invoke_run, Hlim. now do 2 eexists. Qed.

End DriverClaims.

(** ** The proxy *)

Section ProxyClaims.
Context {env : Env} {codec : Codec}.

(** What [send_block_headers] of the proxy does for any [request_id]: one
    [broadcast_nowait] of an event with the proxy's session, the headers, the
    buffer value and [request_id] as passed, to the proxy's broadcast config;
    [request_id] as passed is also what it returns.  The generator is never
    consulted. *)
Lemma proxy_send_block_headers_run (self : ProxyLESProtocol)
    (headers : list BlockHeader) (buffer_value : Z) (request_id : option Z)
    (w : World) :
  ProxyLESProtocol_send_block_headers self headers buffer_value request_id w =
  (Ok request_id,
   mkWorld (id_source w)
     (trace w ++
      [ BroadcastNowait (_event_bus self)
          (mkSendBlockHeadersEvent (session self) headers buffer_value request_id)
          (_broadcast_config self) ])).
Proof. reflexivity. Qed.

(** C1, where the code departs from it.  Called without a request id, the
    proxy publishes its one event with request id [None] and returns [None]:
    no id is generated, the generator's state is the one before the call. *)
Theorem proxy_send_block_headers_without_id (self : ProxyLESProtocol)
    (headers : list BlockHeader) (buffer_value : Z) (w : World) :
  exists w',
    ProxyLESProtocol_send_block_headers self headers buffer_value None w =
      (Ok None, w') /\
    trace w' = trace w ++
      [ BroadcastNowait (_event_bus self)
          (mkSendBlockHeadersEvent (session self) headers buffer_value None)
          (_broadcast_config self) ] /\
    id_source w' = id_source w.
Proof.
  eexists. rewrite proxy_send_block_headers_run. now repeat split.
Qed.

(** The sibling [LESProtocol.send_block_headers] on the same input: an id
    is drawn from the generator, put in the payload and returned. *)
Lemma driver_send_block_headers_without_id (self : Driver)
    (headers : list BlockHeader) (buffer_value : Z) (w : World) :
  fst (send_block_headers self headers buffer_value None w) =
  Ok (fst (gen_request_id (id_source w))).
Proof.
  pose proof (invoke_run self (call_send_block_headers headers buffer_value) None w)
    as Hrun.
  cbn [invoke over_limit] in Hrun. now rewrite Hrun.
Qed.

(** C7. Each of the six proxy methods without a forwarding event raises
    [NotImplementedError] on every call and leaves the world as it was: no
    event published, no id drawn, nothing logged or sent. *)
Theorem proxy_unsupported_calls_raise (self : ProxyLESProtocol) (w : World) :
  let unsupported {A} : Result A * World :=
    (Raise (NotImplementedError "API not implemented"), w) in
  (forall p, ProxyLESProtocol_send_handshake self p w = unsupported) /\
  (forall hs rid, ProxyLESProtocol_send_get_block_bodies self hs rid w = unsupported) /\
  (forall b m s r rid,
     ProxyLESProtocol_send_get_block_headers self b m s r rid w = unsupported) /\
  (forall h rid, ProxyLESProtocol_send_get_receipts self h rid w = unsupported) /\
  (forall h a k l rid, ProxyLESProtocol_send_get_proof self h a k l rid w = unsupported) /\
  (forall h k rid, ProxyLESProtocol_send_get_contract_code self h k rid w = unsupported).
Proof. cbv zeta. repeat split. Qed.

End ProxyClaims.

(** ** The beacon-blocks tracker *)

Module T := GetBeaconBlocksTracker.

Section TrackerClaims.
Context {env : Env}.

(** C8. For a request whose payload declares [max_blocks] = N and a result
    of M blocks, the requested size is N, whatever M is, and both the result
    size and the result item count are M. *)
Theorem tracker_sizes (request : T.GetBeaconBlocksRequest)
    (result : list BaseBeaconBlock) (N : Z) (M : nat) :
  dict_get (T.command_payload request) "max_blocks" = Some (VInt N) ->
  List.length result = M ->
  T._get_request_size request = Ok (VInt N) /\
  T._get_result_size result = Z.of_nat M /\
  T._get_result_item_count result = Z.of_nat M.
Proof.
  intros Hmax Hlen. unfold T._get_request_size, T.dict_getitem.
  rewrite Hmax. subst M. now repeat split.
Qed.

End TrackerClaims.

(** ** More on the handshake payload *)

Section PayloadProperties.
Context {env : Env}.

Ltac lookup_in_items :=
  rewrite as_payload_dict_is_items; unfold P._as_payload_dict_items;
  repeat rewrite dict_get_app; repeat rewrite dict_get_yield_if; cbn;
  repeat rewrite andb_false_r; repeat rewrite andb_true_r.

(** Every lookup the payload answers, key by key. *)
Lemma payload_lookups (self : P.t) :
  let d := P.as_payload_dict self in
  dict_get d "protocolVersion" = Some (VInt (P.version self)) /\
  dict_get d "networkId" = Some (VInt (P.network_id self)) /\
  dict_get d "headTd" = Some (VInt (P.head_td self)) /\
  dict_get d "headHash" = Some (VBytes (P.head_hash self)) /\
  dict_get d "headNum" = Some (VInt (P.head_number self)) /\
  dict_get d "genesisHash" = Some (VBytes (P.genesis_hash self)) /\
  dict_get d "serveHeaders" = (if P.serve_headers self then Some VNone else None) /\
  dict_get d "serveChainSince" = option_map VInt (P.serve_chain_since self) /\
  dict_get d "serveStateSince" = option_map VInt (P.serve_state_since self) /\
  dict_get d "serveRecentChain" = option_map VBool (P.serve_recent_chain self) /\
  dict_get d "serveRecentState" = option_map VBool (P.serve_recent_state self) /\
  dict_get d "txRelay" = (if P.tx_relay self then Some VNone else None) /\
  dict_get d "flowControl/BL" = option_map VInt (P.flow_control_bl self) /\
  dict_get d "flowControl/MRC" = option_map P.mcr_value (P.flow_control_mcr self) /\
  dict_get d "flowControl/MRR" = option_map VInt (P.flow_control_mrr self) /\
  dict_get d "announceType" = option_map VInt (P.announce_type self).
Proof.
  cbv zeta. repeat split; lookup_in_items; try reflexivity.
  - now destruct (P.serve_headers self).
  - now destruct (P.serve_chain_since self).
  - now destruct (P.serve_state_since self).
  - now destruct (P.serve_recent_chain self).
  - now destruct (P.serve_recent_state self).
  - now destruct (P.tx_relay self).
  - now destruct (P.flow_control_bl self).
  - now destruct (P.flow_control_mcr self).
  - now destruct (P.flow_control_mrr self).
  - now destruct (P.announce_type self).
Qed.

(** An [Optional] field that is set travels under its key with its own
    value: block numbers, the buffer limit, the recharge rate and the
    announce type as integers, the cost table as a tuple of integer triples
    in the order given. *)
Theorem payload_optional_values (self : P.t) :
  let d := P.as_payload_dict self in
  dict_get d "serveChainSince" = option_map VInt (P.serve_chain_since self) /\
  dict_get d "serveStateSince" = option_map VInt (P.serve_state_since self) /\
  dict_get d "flowControl/BL" = option_map VInt (P.flow_control_bl self) /\
  dict_get d "flowControl/MRC" =
    option_map
      (fun rows => VTuple (map (fun '(a, b, c) => VTuple [VInt a; VInt b; VInt c]) rows))
      (P.flow_control_mcr self) /\
  dict_get d "flowControl/MRR" = option_map VInt (P.flow_control_mrr self) /\
  dict_get d "announceType" = option_map VInt (P.announce_type self).
Proof.
  destruct (payload_lookups self)
    as (_ & _ & _ & _ & _ & _ & _ & H1 & H2 & _ & _ & _ & H3 & H4 & H5 & H6).
  cbv zeta. now repeat split.
Qed.

(** The builder never yields the same key twice, so turning its pairs into
    a dict overwrites nothing: the payload is the pairs as yielded, each one
    kept, in the order yielded. *)
Theorem payload_keeps_every_yielded_pair (self : P.t) :
  NoDup (map fst (P._as_payload_dict_items self)) /\
  P.as_payload_dict self = P._as_payload_dict_items self.
Proof.
  split; [|apply as_payload_dict_is_items].
  rewrite (items_keys self : map fst _ = _).
  apply NoDup_app_filter, payload_keys_distinct.
Qed.

(** The payload has no key beyond the sixteen the builder knows. *)
Theorem payload_keys_known (self : P.t) :
  incl (keys (P.as_payload_dict self))
    (P.required_fields ++ P.optional_fields_yielded).
Proof.
  rewrite as_payload_dict_is_items, items_keys.
  apply incl_app; [apply incl_appl, incl_refl | apply incl_appr, incl_filter].
Qed.

(** The payload has at least the six fixed entries and at most sixteen. *)
Theorem payload_size_bounds (self : P.t) :
  (6 <= List.length (P.as_payload_dict self) <= 16)%nat.
Proof.
  assert (Hlen : List.length (P.as_payload_dict self) =
                 List.length (keys (P.as_payload_dict self)))
    by (unfold keys; now rewrite length_map).
  rewrite Hlen, as_payload_dict_is_items, items_keys, length_app.
  pose proof (filter_length_le (P.yields self) P.optional_fields_yielded) as Hle.
  change (List.length P.required_fields) with 6%nat.
  change (List.length P.optional_fields_yielded) with 10%nat in Hle.
  lia.
Qed.

Lemma option_map_VInt_inj (x y : option Z) :
  option_map VInt x = option_map VInt y -> x = y.
Proof. destruct x, y; simpl; congruence. Qed.

Lemma option_map_VBool_inj (x y : option bool) :
  option_map VBool x = option_map VBool y -> x = y.
Proof. destruct x, y; simpl; congruence. Qed.

Lemma marker_inj (a b : bool) :
  (if a then Some VNone else None) = (if b then Some VNone else None) -> a = b.
Proof. destruct a, b; congruence. Qed.

Lemma mcr_rows_inj (r1 r2 : list (Z * Z * Z)) :
  map (fun '(a, b, c) => VTuple [VInt a; VInt b; VInt c]) r1 =
  map (fun '(a, b, c) => VTuple [VInt a; VInt b; VInt c]) r2 -> r1 = r2.
Proof.
  revert r2. induction r1 as [|[[a b] c] r1 IH]; intros [|[[a' b'] c'] r2] Heq;
    simpl in Heq; try discriminate; [reflexivity|].
  injection Heq as Ha Hb Hc Hrest. subst. f_equal. now apply IH.
Qed.

Lemma option_map_mcr_inj (x y : option (list (Z * Z * Z))) :
  option_map P.mcr_value x = option_map P.mcr_value y -> x = y.
Proof.
  destruct x as [r1|], y as [r2|]; simpl; try congruence.
  unfold P.mcr_value. intros Heq. injection Heq as Heq.
  f_equal. now apply mcr_rows_inj.
Qed.

(** The payload determines the record: two records with the same payload
    agree on every field. *)
Theorem as_payload_dict_injective (p q : P.t) :
  P.as_payload_dict p = P.as_payload_dict q -> p = q.
Proof.
  intros Heq.
  pose proof (payload_lookups p) as Hp. pose proof (payload_lookups q) as Hq.
  cbv zeta in Hp, Hq. rewrite Heq in Hp.
  destruct Hp as (P1 & P2 & P3 & P4 & P5 & P6 & P7 & P8 & P9 & P10 & P11 & P12
                  & P13 & P14 & P15 & P16).
  destruct Hq as (Q1 & Q2 & Q3 & Q4 & Q5 & Q6 & Q7 & Q8 & Q9 & Q10 & Q11 & Q12
                  & Q13 & Q14 & Q15 & Q16).
  rewrite Q1 in P1. rewrite Q2 in P2. rewrite Q3 in P3. rewrite Q4 in P4.
  rewrite Q5 in P5. rewrite Q6 in P6. rewrite Q7 in P7. rewrite Q8 in P8.
  rewrite Q9 in P9. rewrite Q10 in P10. rewrite Q11 in P11. rewrite Q12 in P12.
  rewrite Q13 in P13. rewrite Q14 in P14. rewrite Q15 in P15. rewrite Q16 in P16.
  apply marker_inj in P7, P12.
  apply option_map_VInt_inj in P8, P9, P13, P15, P16.
  apply option_map_VBool_inj in P10, P11.
  apply option_map_mcr_inj in P14.
  clear Heq Q1 Q2 Q3 Q4 Q5 Q6 Q7 Q8 Q9 Q10 Q11 Q12 Q13 Q14 Q15 Q16.
  destruct p, q; simpl in *.
  injection P1 as P1. injection P2 as P2. injection P3 as P3.
  injection P4 as P4. injection P5 as P5. injection P6 as P6.
  subst. reflexivity.
Qed.

End PayloadProperties.

(** ** More on the protocol drivers *)

Section DriverProperties.
Context {env : Env} {codec : Codec}.

(** The two actions of one request: the encoder called on the method's
    dictionary, and the frame it returned handed to the driver's transport. *)
Definition request_actions (self : Driver) (c : RequestCall) (id : Z) : list Action :=
  let cmd := command_of (class_of self) c in
  let data := request_data c id in
  let frame := encode cmd (cmd_id_offset self) (snappy_support self) data in
  [ Encoded cmd (cmd_id_offset self) (snappy_support self) data;
    TransportSend (transport self) (fst frame) (snd frame) ].

Lemma sent_trace (self : Driver) (c : RequestCall) (id : Z) (w : World) :
  sent self (command_of (class_of self) c) (request_data c id) w =
  mkWorld (id_source w) (trace w ++ request_actions self c id).
Proof. reflexivity. Qed.

(** A bodies request over the limit is refused after the request id was
    settled: with an id from the caller the world is left exactly as it was,
    without one an id has been drawn from the generator and is lost. *)
Theorem refused_bodies_request_effects (self : Driver) (block_hashes : list bytes)
    (w : World) :
  Z.of_nat (List.length block_hashes) > MAX_BODIES_FETCH ->
  (forall r,
     send_get_block_bodies self block_hashes (Some r) w =
       (Raise (ValueError too_many_bodies_msg), w)) /\
  send_get_block_bodies self block_hashes None w =
    (Raise (ValueError too_many_bodies_msg),
     mkWorld (snd (gen_request_id (id_source w))) (trace w)).
Proof.
  intros Hlen. apply Z.gtb_gt in Hlen. split; [intros r|].
  - pose proof (invoke_run self (call_send_get_block_bodies block_hashes) (Some r) w)
      as Hrun.
    cbn [invoke over_limit] in Hrun. now rewrite Hlen in Hrun.
  - pose proof (invoke_run self (call_send_get_block_bodies block_hashes) None w)
      as Hrun.
    cbn [invoke over_limit] in Hrun. now rewrite Hlen in Hrun.
Qed.

(** An empty list of hashes is not refused: as long as the limit is not
    negative, a bodies request with no hashes is encoded and sent. *)
Theorem empty_bodies_request_is_sent (self : Driver) (request_id : option Z)
    (w : World) :
  0 <= MAX_BODIES_FETCH ->
  exists id w',
    send_get_block_bodies self [] request_id w = (Ok id, w') /\
    let data := [("request_id", VInt id); ("block_hashes", VList [])] in
    let frame := encode GetBlockBodies (cmd_id_offset self) (snappy_support self) data in
    trace w' = trace w ++
      [ Encoded GetBlockBodies (cmd_id_offset self) (snappy_support self) data;
        TransportSend (transport self) (fst frame) (snd frame) ].
Proof.
  intros Hmax.
  pose proof (invoke_run self (call_send_get_block_bodies []) request_id w) as Hrun.
  cbn [invoke over_limit command_of request_data List.length map] in Hrun.
  assert (Hle : (Z.of_nat 0 >? MAX_BODIES_FETCH) = false)
    by (rewrite Z.gtb_ltb; apply Z.ltb_ge; simpl; lia).
  rewrite Hle in Hrun. do 2 eexists. split; [exact Hrun|].
  cbv zeta. unfold sent. cbn [trace]. now rewrite trace_settle_id.
Qed.

(** What a driver call may add to the trace: encoder calls with the
    driver's own offset and compression flag, frames on the driver's own
    transport, and log lines; never a broadcast. *)
Definition own_action (self : Driver) (a : Action) : Prop :=
  match a with
  | Encoded _ off sn _ => off = cmd_id_offset self /\ sn = snappy_support self
  | TransportSend t _ _ => t = transport self
  | LoggerDebug _ _ => True
  | BroadcastNowait _ _ _ => False
  end.

(** Whether a frame handed to the transport is what the encoder returned for
    one of the encoder calls in [actions]. *)
Definition frame_encoded_in (actions : list Action) (a : Action) : Prop :=
  match a with
  | TransportSend _ header body =>
      exists cmd off sn data,
        In (Encoded cmd off sn data) actions /\
        (header, body) = encode cmd off sn data
  | _ => True
  end.

(** Every call on a driver, handshake or request, returning or raising,
    keeps the trace it found and appends to it; what it appends stays on the
    driver's own transport, is never a broadcast, and every frame in it is
    the encoder's output for a payload encoded in the same call. *)
Theorem driver_calls_append_own_actions (self : Driver) (w : World) :
  (forall c request_id,
     exists added,
       trace (snd (invoke self c request_id w)) = trace w ++ added /\
       Forall (own_action self) added /\
       Forall (frame_encoded_in added) added) /\
  (forall handshake_params,
     exists added,
       trace (snd (send_handshake self handshake_params w)) = trace w ++ added /\
       Forall (own_action self) added /\
       Forall (frame_encoded_in added) added).
Proof.
  split.
  - intros c request_id. rewrite invoke_run. destruct (over_limit c).
    + exists []. cbn [snd]. rewrite trace_settle_id, app_nil_r.
      repeat split; constructor.
    + exists (request_actions self c (fst (settle_id request_id w))).
      cbn [snd]. rewrite sent_trace. cbn [trace]. rewrite trace_settle_id.
      split; [reflexivity|]. unfold request_actions. split.
      * repeat constructor.
      * constructor; [exact I|]. constructor; [|constructor].
        cbn. do 4 eexists. split; [left; reflexivity|].
        now destruct (encode _ _ _ _).
  - intros p. rewrite send_handshake_run. destruct (_ =? _).
    + exists (handshake_actions self (P.as_payload_dict p)). cbn [snd trace].
      split; [reflexivity|]. unfold handshake_actions.
      destruct (class_of self); split.
      * repeat constructor.
      * constructor; [exact I|]. constructor; [|repeat constructor].
        cbn. do 4 eexists. split; [left; reflexivity|].
        now destruct (encode _ _ _ _).
      * repeat constructor.
      * constructor; [exact I|]. constructor; [exact I|].
        constructor; [|constructor].
        cbn. do 4 eexists. split; [right; left; reflexivity|].
        now destruct (encode _ _ _ _).
    + exists []. cbn [snd]. rewrite app_nil_r. repeat split; constructor.
Qed.

(** Two requests in a row, neither with an id of its own and neither over
    the limit: the first takes the generator's next id, the second the one
    after it, and the trace grows by the two actions of the first followed by
    the two actions of the second. *)
Theorem consecutive_requests_compose (self : Driver) (c1 c2 : RequestCall)
    (w : World) :
  over_limit c1 = false ->
  over_limit c2 = false ->
  let s0 := id_source w in
  let id1 := fst (gen_request_id s0) in
  let s1 := snd (gen_request_id s0) in
  let id2 := fst (gen_request_id s1) in
  let s2 := snd (gen_request_id s1) in
  (a <- invoke self c1 None ;; b <- invoke self c2 None ;; ret (a, b)) w =
  (Ok (id1, id2),
   mkWorld s2
     (trace w ++ request_actions self c1 id1 ++ request_actions self c2 id2)).
Proof.
  intros H1 H2. cbv zeta. unfold bind.
  rewrite invoke_run, H1, sent_trace.
  rewrite invoke_run, H2, sent_trace.
  cbn. now rewrite <- app_assoc.
Qed.

(** A handshake that returns has passed the version check, so the one
    payload it encoded, sent and logged is that of a record with the
    driver's own version, and holds that version under ['protocolVersion'].
    Nothing else was encoded or sent in the call. *)
Theorem handshake_declares_driver_version (self : Driver)
    (handshake_params : P.t) (w w' : World) :
  send_handshake self handshake_params w = (Ok tt, w') ->
  let resp := P.as_payload_dict handshake_params in
  let off := cmd_id_offset self in
  let sn := snappy_support self in
  P.version handshake_params = version (class_of self) /\
  dict_get resp "protocolVersion" = Some (VInt (version (class_of self))) /\
  trace w' = trace w ++
    match class_of self with
    | cls_LESProtocol =>
        [ Encoded Status off sn resp;
          TransportSend (transport self)
            (fst (encode Status off sn resp)) (snd (encode Status off sn resp));
          LoggerDebug "Sending LES/Status msg: %s" resp ]
    | cls_LESProtocolV2 =>
        [ LoggerDebug "Sending LES/Status msg: %s" resp;
          Encoded StatusV2 off sn resp;
          TransportSend (transport self)
            (fst (encode StatusV2 off sn resp)) (snd (encode StatusV2 off sn resp)) ]
    end.
Proof.
  rewrite send_handshake_run.
  destruct (Z.eqb_spec (P.version handshake_params) (version (class_of self)))
    as [Hv|Hv]; [|discriminate].
  intros Heq. injection Heq as Hw. subst w'. cbv zeta. cbn [trace].
  destruct (payload_lookups handshake_params) as [Hget _]. cbv zeta in Hget.
  split; [exact Hv|]. split; [now rewrite Hget, Hv|].
  unfold handshake_actions. now destruct (class_of self).
Qed.

(** The request methods do not go through the registry: of the commands
    they encode with, only those of the two header calls are in [_commands]
    of the driver's class. *)
Theorem request_commands_and_registry (cls : ProtocolClass) (c : RequestCall) :
  In (command_of cls c) (_commands cls) <->
  (exists b m s r, c = call_send_get_block_headers b m s r) \/
  (exists hs bv, c = call_send_block_headers hs bv).
Proof.
  split.
  - intros Hin. destruct c;
      try (left; do 4 eexists; reflexivity);
      try (right; do 2 eexists; reflexivity);
      exfalso; destruct cls; cbn in Hin;
      repeat (destruct Hin as [Hin|Hin]; [discriminate|]); exact Hin.
  - intros [(b & m & s & r & ->)|(hs & bv & ->)]; destruct cls; cbn; tauto.
Qed.

End DriverProperties.

(** ** More on the proxy and the tracker *)

Section ProxyProperties.
Context {env : Env} {codec : Codec}.

(** With a request id from the caller, the proxy's [send_block_headers]
    never raises: it publishes one event to its broadcast config, carrying
    its session, the headers, the buffer value and that id, returns the id,
    and leaves the id generator alone. *)
Theorem proxy_send_block_headers_with_id (self : ProxyLESProtocol)
    (headers : list BlockHeader) (buffer_value : Z) (r : Z) (w : World) :
  exists w',
    ProxyLESProtocol_send_block_headers self headers buffer_value (Some r) w =
      (Ok (Some r), w') /\
    trace w' = trace w ++
      [ BroadcastNowait (_event_bus self)
          (mkSendBlockHeadersEvent (session self) headers buffer_value (Some r))
          (_broadcast_config self) ] /\
    id_source w' = id_source w.
Proof.
  eexists. rewrite proxy_send_block_headers_run. now repeat split.
Qed.

End ProxyProperties.

Section TrackerProperties.
Context {env : Env}.

(** A request whose payload has no ['max_blocks'] entry has no request
    size: the lookup raises [KeyError]. *)
Theorem tracker_request_size_missing_key (request : T.GetBeaconBlocksRequest) :
  dict_get (T.command_payload request) "max_blocks" = None ->
  T._get_request_size request = Raise (KeyError "max_blocks").
Proof.
  intros Hnone. unfold T._get_request_size, T.dict_getitem. now rewrite Hnone.
Qed.

(** The result size and the result item count are the same number for every
    result; it is never negative, it is zero for the empty result only, and
    over two results put together it is the sum of the two. *)
Theorem tracker_result_size_counts_items (r1 r2 : list BaseBeaconBlock) :
  T._get_result_size r1 = T._get_result_item_count r1 /\
  0 <= T._get_result_size r1 /\
  (T._get_result_size r1 = 0 <-> r1 = []) /\
  T._get_result_size (r1 ++ r2) = T._get_result_size r1 + T._get_result_size r2.
Proof.
  unfold T._get_result_size, T._get_result_item_count.
  split; [reflexivity|]. split; [lia|]. split.
  - split; intros Hz; [|now subst].
    destruct r1; [reflexivity | simpl in Hz; lia].
  - rewrite length_app. lia.
Qed.

End TrackerProperties.

(** ** The claims on concrete inputs *)

#[local] Existing Instance demo_env.
#[local] Existing Instance demo_codec.

Definition demo_v1 : @Driver demo_env := @mkDriver demo_env cls_LESProtocol tt 16 false.
Definition demo_v2 : @Driver demo_env := @mkDriver demo_env cls_LESProtocolV2 tt 16 false.

Definition demo_hash : bytes := [Byte.xab; Byte.xcd].

(** A [GetBeaconBlocksRequest] asking for at most 10 blocks from slot 5. *)
Definition demo_request : @T.GetBeaconBlocksRequest demo_env :=
  @T.mkRequest demo_env
    [ ("request_id", VInt 1); ("block_slot_or_root", VInt 5); ("max_blocks", VInt 10) ].

(** Three hashes against a limit of two are refused with an empty trace; one
    hash goes out under the generator's id 41. *)
Lemma send_get_block_bodies_limit_witness :
  (exists w',
     @send_get_block_bodies demo_env demo_codec demo_v1
       [demo_hash; demo_hash; demo_hash] None demo_world =
       (Raise (ValueError "Cannot ask for more than 2 blocks in a single request"), w') /\
     trace w' = []) /\
  (exists rid w',
     @send_get_block_bodies demo_env demo_codec demo_v1 [demo_hash] None demo_world =
       (Ok rid, w') /\
     trace w' =
       [ Encoded GetBlockBodies 16 false
           [("request_id", VInt rid); ("block_hashes", VList [VBytes demo_hash])];
         TransportSend tt [Byte.x10] [] ]).
Proof.
  split.
  - apply (proj1 (@send_get_block_bodies_limit demo_env demo_codec demo_v1
                    [demo_hash; demo_hash; demo_hash] None demo_world)).
    vm_compute. reflexivity.
  - apply (proj2 (@send_get_block_bodies_limit demo_env demo_codec demo_v1
                    [demo_hash] None demo_world)).
    vm_compute. discriminate.
Defined.

(** Version-2 parameters on a version-1 driver are refused; version-1
    parameters are encoded with [Status] and sent. *)
Lemma send_handshake_version_check_witness :
  @send_handshake demo_env demo_codec demo_v1 bare_params demo_world =
    (Raise (ValidationError "LES protocol version mismatch: params:2 != proto:1"),
     demo_world) /\
  @send_handshake demo_env demo_codec demo_v1 demo_params demo_world =
    (Ok tt,
     @mkWorld demo_env 41
       [ Encoded Status 16 false (@P.as_payload_dict demo_env demo_params);
         TransportSend tt [Byte.x10] [];
         LoggerDebug "Sending LES/Status msg: %s"
           (@P.as_payload_dict demo_env demo_params) ]).
Proof.
  split.
  - apply (proj1 (@send_handshake_version_check demo_env demo_codec demo_v1
                    bare_params demo_world)).
    vm_compute. discriminate.
  - apply (proj2 (@send_handshake_version_check demo_env demo_codec demo_v1
                    demo_params demo_world)).
    reflexivity.
Defined.


(** A version-2 proof request without an id returns the generator's 41, which
    is the ['request_id'] of the payload encoded with [GetProofsV2]. *)
Lemma returned_id_is_payload_id_witness :
  exists data,
    trace (snd (@invoke demo_env demo_codec demo_v2
                  (call_send_get_proof demo_hash demo_hash demo_hash 0) None demo_world)) =
      [ Encoded GetProofsV2 16 false data; TransportSend tt [Byte.x10] [] ] /\
    dict_get data "request_id" = Some (VInt 41) /\
    @gen_request_id demo_env 41 = (41, 42).
Proof.
  apply (@returned_id_is_payload_id demo_env demo_codec demo_v2
           (call_send_get_proof demo_hash demo_hash demo_hash 0) None demo_world
           (snd (@invoke demo_env demo_codec demo_v2
                   (call_send_get_proof demo_hash demo_hash demo_hash 0) None demo_world))
           41).
  reflexivity.
Defined.

(** Ten blocks asked for, three delivered: sizes 10, 3 and 3. *)
Lemma tracker_sizes_witness :
  @T._get_request_size demo_env demo_request = Ok (VInt 10) /\
  @T._get_result_size demo_env [1; 2; 3] = 3 /\
  @T._get_result_item_count demo_env [1; 2; 3] = 3.
Proof.
  apply (@tracker_sizes demo_env demo_request [1; 2; 3] 10 3); reflexivity.
Defined.

(** ** Further properties on concrete inputs *)

Lemma as_payload_dict_injective_witness :
  recent_params =
  LESHandshakeParams.mk (1 + 1) 1 (10 * 10) [] 7 [] false None None
    (Some (negb false)) (Some false) false None None None None.
Proof.
  apply (@as_payload_dict_injective demo_env). reflexivity.
Defined.

(** Three hashes against a limit of two: with the caller's id 9 the world is
    untouched, without an id the generator has moved from 41 to 42. *)
Lemma refused_bodies_request_effects_witness :
  send_get_block_bodies demo_v1 [demo_hash; demo_hash; demo_hash] (Some 9) demo_world =
    (Raise (ValueError "Cannot ask for more than 2 blocks in a single request"),
     demo_world) /\
  send_get_block_bodies demo_v1 [demo_hash; demo_hash; demo_hash] None demo_world =
    (Raise (ValueError "Cannot ask for more than 2 blocks in a single request"),
     mkWorld 42 []).
Proof.
  assert (Hlen : Z.of_nat (List.length [demo_hash; demo_hash; demo_hash]) >
                 @MAX_BODIES_FETCH demo_env) by (vm_compute; reflexivity).
  destruct (@refused_bodies_request_effects demo_env demo_codec demo_v1
              [demo_hash; demo_hash; demo_hash] demo_world Hlen) as [Hsome Hnone].
  exact (conj (Hsome 9) Hnone).
Defined.

Lemma empty_bodies_request_is_sent_witness :
  exists id w',
    send_get_block_bodies demo_v1 [] (Some 9) demo_world = (Ok id, w') /\
    trace w' =
      [ Encoded GetBlockBodies 16 false
          [("request_id", VInt id); ("block_hashes", VList [])];
        TransportSend tt [Byte.x10] [] ].
Proof.
  apply (@empty_bodies_request_is_sent demo_env demo_codec demo_v1 (Some 9) demo_world).
  vm_compute. discriminate.
Defined.

(** A receipts request followed by a contract-code request: ids 41 and 42,
    four actions, the generator left at 43. *)
Lemma consecutive_requests_compose_witness :
  (a <- invoke demo_v1 (call_send_get_receipts demo_hash) None ;;
   b <- invoke demo_v1 (call_send_get_contract_code demo_hash demo_hash) None ;;
   ret (a, b)) demo_world =
  (Ok (41, 42),
   mkWorld 43
     [ Encoded GetReceipts 16 false
         [("request_id", VInt 41); ("block_hashes", VList [VBytes demo_hash])];
       TransportSend tt [Byte.x10] [];
       Encoded GetContractCodes 16 false
         [("request_id", VInt 42);
          ("code_requests", VList [ContractCodeRequest demo_hash demo_hash])];
       TransportSend tt [Byte.x10] [] ]).
Proof.
  apply (@consecutive_requests_compose demo_env demo_codec demo_v1
           (call_send_get_receipts demo_hash)
           (call_send_get_contract_code demo_hash demo_hash) demo_world);
    reflexivity.
Defined.

Lemma handshake_declares_driver_version_witness :
  let resp := @P.as_payload_dict demo_env bare_params in
  P.version bare_params = 2 /\
  dict_get resp "protocolVersion" = Some (VInt 2) /\
  trace (snd (send_handshake demo_v2 bare_params demo_world)) =
    [ LoggerDebug "Sending LES/Status msg: %s" resp;
      Encoded StatusV2 16 false resp;
      TransportSend tt [Byte.x10] [] ].
Proof.
  apply (@handshake_declares_driver_version demo_env demo_codec demo_v2 bare_params
           demo_world (snd (send_handshake demo_v2 bare_params demo_world))).
  reflexivity.
Defined.

(** A request whose payload was built without a ['max_blocks'] entry. *)
Lemma tracker_request_size_missing_key_witness :
  T._get_request_size
    (T.mkRequest [("request_id", VInt 1); ("block_slot_or_root", VInt 5)]) =
  Raise (KeyError "max_blocks").
Proof.
  apply (@tracker_request_size_missing_key demo_env). reflexivity.
Defined.
